(** * NodePodOperator: a shallow embedding of
      [kedro_airflow_k8s/operators/node_pod.py]

    The operator translates the parameters of one kedro node into the keyword
    arguments of Airflow's [KubernetesPodOperator] and renders a partial pod
    definition as text.  Python values are modelled with the types of the
    annotations in the source: [Optional[str]] is [option string], [bool] is
    [bool], [int] is [Z], a [dict] with string keys is a [gmap string _].
    A raised exception is the [Raise] branch of [result]. *)

From Stdlib Require Import ZArith Lia Ascii String List.
From stdpp Require Import base option gmap strings.
Import ListNotations.

Local Open Scope string_scope.
Local Open Scope Z_scope.

(** ** Exceptions *)

Inductive exn : Type :=
  | NameError (name : string).

Inductive result (A : Type) : Type :=
  | Ok (a : A)
  | Raise (e : exn).
Arguments Ok {A} a.
Arguments Raise {A} e.

#[global] Instance result_ret : MRet result := fun A a => Ok a.

#[global] Instance result_bind : MBind result := fun A B k m =>
  match m with
  | Ok a => k a
  | Raise e => Raise e
  end.

(** ** Name resolution

    A name that is not local to a function is looked up in the globals of the
    module.  The module binds exactly the names of its [import] statements
    and of its one class; a name bound nowhere raises [NameError]. *)

Inductive pyobj : Type :=
  | PyModule (name : string)
  | PyClass (qualname : string)
  | PyStr (s : string).

Definition module_globals : gmap string pyobj :=
  <["uuid" := PyModule "uuid"]>
  (<["List" := PyClass "typing.List"]>
  (<["Dict" := PyClass "typing.Dict"]>
  (<["Optional" := PyClass "typing.Optional"]>
  (<["PodGenerator" :=
       PyClass "airflow.contrib.kubernetes.pod_generator.PodGenerator"]>
  (<["KubernetesPodOperator" :=
       PyClass "airflow.contrib.operators.kubernetes_pod_operator.KubernetesPodOperator"]>
  (<["k8s" := PyModule "kubernetes.client.models"]>
  (<["NodePodOperator" := PyClass "NodePodOperator"]> ∅))))))).

Definition load_global (g : gmap string pyobj) (name : string) : result pyobj :=
  match g !! name with
  | Some v => Ok v
  | None => Raise (NameError name)
  end.

(** ** Truthiness of an optional string: [None] and the empty string are
    falsy, every other string is truthy. *)

Definition truthy (o : option string) : bool :=
  match o with
  | None => false
  | Some EmptyString => false
  | Some (String _ _) => true
  end.

(** ** [create_resources]

    [store_if_truthy key value d] is the statement pair
    [if value: d[key] = value]. *)

Definition store_if_truthy (key : string) (value : option string)
    (d : gmap string string) : gmap string string :=
  match value with
  | Some v => if truthy value then <[key := v]> d else d
  | None => d
  end.

Definition create_resources
    (requests_cpu requests_memory limits_cpu limits_memory : option string)
    : gmap string string :=
  let resources : gmap string string := ∅ in
  let resources := store_if_truthy "request_cpu" requests_cpu resources in
  let resources := store_if_truthy "request_memory" requests_memory resources in
  let limits : gmap string string := ∅ in
  let resources := store_if_truthy "limit_memory" limits_cpu resources in
  let resources := store_if_truthy "limit_cpu" limits_memory resources in
  resources.

(** ** [create_security_context]

    The dictionary display [{fs_group: volume_owner}] has the NAME [fs_group]
    as its key expression, so the key is whatever that name is bound to.  The
    conditional expression evaluates it only when [not volume_disabled]. *)

Definition create_security_context (g : gmap string pyobj)
    (volume_disabled : bool) (volume_owner : Z) : result (list (pyobj * Z)) :=
  if negb volume_disabled then
    fs_group ← load_global g "fs_group";
    mret [(fs_group, volume_owner)]
  else mret [].

(** ** Text

    [LF] is the line feed that ends every line of a triple-quoted literal and
    [DQ] the double quote of [key="mlflow_run_id"]. *)

Definition LF : ascii := "010"%char.
Definition DQ : string := String "034"%char EmptyString.

(** A replacement field [{x}] of an f-string formats [x] with an empty format
    specification: a [str] is inserted as it is, [None] as its name. *)

Definition format_field (o : option string) : string :=
  match o with
  | Some s => s
  | None => "None"
  end.

(** *** [uuid.uuid4().hex]

    A UUID is a 128-bit integer; [hex] is ['%032x' % self.int], the integer in
    lower-case hexadecimal, padded with zeros to 32 digits. *)

Definition is_uuid_int (n : Z) : Prop := 0 <= n < 2 ^ 128.

Definition hex_digit (d : Z) : ascii :=
  match d with
  | 0 => "0" | 1 => "1" | 2 => "2" | 3 => "3"
  | 4 => "4" | 5 => "5" | 6 => "6" | 7 => "7"
  | 8 => "8" | 9 => "9" | 10 => "a" | 11 => "b"
  | 12 => "c" | 13 => "d" | 14 => "e" | _ => "f"
  end%char.

(** The [k] lowest hexadecimal digits of [n], least significant first. *)
Fixpoint hex_digits_rev (k : nat) (n : Z) : list ascii :=
  match k with
  | O => []
  | S k' => hex_digit (n mod 16) :: hex_digits_rev k' (n / 16)
  end.

Definition hex (n : Z) : string :=
  string_of_list_ascii (rev (hex_digits_rev 32 n)).

(** ** The instance attributes set by [__init__] and read by the property *)

Record NodePodOperator : Type := {
  _task_id : string;
  _volume_disabled : bool;
  _pvc_name : option string;
  _mlflow_enabled : bool
}.

(** ** [minimal_pod_template]

    The property draws a fresh UUID on every access; [token] is the integer
    of the UUID drawn by this access.  The three literals are those of the
    source, line for line. *)

Definition pod_header (task_id : string) (token : Z) : string :=
  "
apiVersion: v1
kind: Pod
metadata:
  name: " +:+ task_id +:+ "." +:+ hex token +:+ "
spec:
  containers:
    - name: base
      env:
".

Definition mlflow_env_entry : string :=
  "
        - name: MLFLOW_RUN_ID
          value: {{ task_instance.xcom_pull(key=" +:+ DQ +:+ "mlflow_run_id" +:+ DQ +:+ ") }}
".

Definition volumes_block (pvc_name : option string) : string :=
  "
  volumes:
    - name: storage
      persistentVolumeClaim:
        claimName: " +:+ format_field pvc_name +:+ "
".

Definition minimal_pod_template (self : NodePodOperator) (token : Z) : string :=
  let minimal_pod_template := pod_header (_task_id self) token in
  let minimal_pod_template :=
    if _mlflow_enabled self
    then minimal_pod_template +:+ mlflow_env_entry
    else minimal_pod_template in
  let minimal_pod_template :=
    if negb (_volume_disabled self)
    then minimal_pod_template +:+ volumes_block (_pvc_name self)
    else minimal_pod_template in
  minimal_pod_template.

(** ** [__init__] *)

Record V1VolumeMount : Type := {
  mount_path : string;
  name : string
}.

(** The parameters of [__init__].  A parameter with a default value is an
    [option]: [None] when the caller leaves it out.  For the parameters whose
    default is Python's [None], leaving it out and passing [None] are the
    same. *)
Module Params.
Record t : Type := {
  node_name : string;
  namespace : string;
  image : string;
  image_pull_policy : string;
  env : string;
  task_id : string;
  pipeline : option string;
  pvc_name : option string;
  startup_timeout : option Z;
  volume_disabled : option bool;
  volume_owner : option Z;
  mlflow_enabled : option bool;
  requests_cpu : option string;
  requests_memory : option string;
  limits_cpu : option string;
  limits_memory : option string;
  node_selector_labels : option (gmap string string);
  labels : option (gmap string string);
  tolerations : option (list (gmap string string));
  annotations : option (gmap string string);
  source : option string
}.
End Params.

(** The keyword arguments [__init__] hands to the base class. *)
Module Base.
Record kwargs : Type := {
  name : string;
  task_id : string;
  security_context : list (pyobj * Z);
  namespace : string;
  image : string;
  image_pull_policy : string;
  arguments : list string;
  volume_mounts : list V1VolumeMount;
  resources : gmap string string;
  startup_timeout_seconds : Z;
  is_delete_operator_pod : bool;
  config_file : string;
  node_selectors : option (gmap string string);
  labels : option (gmap string string);
  tolerations : option (list (gmap string string));
  annotations : option (gmap string string)
}.
End Base.

(** [__init__] stores the four attributes, then evaluates the keyword
    arguments of [super().__init__] from left to right: the security context
    is the third, and [config_file=self.minimal_pod_template] reads the
    property once, with the UUID [token] drawn by that access. *)
Definition init (g : gmap string pyobj) (p : Params.t) (token : Z)
    : result (NodePodOperator * Base.kwargs) :=
  let pipeline := default "__default__" (Params.pipeline p) in
  let startup_timeout := default 600 (Params.startup_timeout p) in
  let volume_disabled := default false (Params.volume_disabled p) in
  let volume_owner := default 0 (Params.volume_owner p) in
  let mlflow_enabled := default true (Params.mlflow_enabled p) in
  let source := default "/home/kedro/data" (Params.source p) in
  let self :=
    {| _task_id := Params.task_id p;
       _volume_disabled := volume_disabled;
       _pvc_name := Params.pvc_name p;
       _mlflow_enabled := mlflow_enabled |} in
  security_context ← create_security_context g volume_disabled volume_owner;
  mret (self,
    {| Base.name := Params.task_id p;
       Base.task_id := Params.task_id p;
       Base.security_context := security_context;
       Base.namespace := Params.namespace p;
       Base.image := Params.image p;
       Base.image_pull_policy := Params.image_pull_policy p;
       Base.arguments :=
         [ "kedro";
           "run";
           "-e";
           Params.env p;
           "--pipeline";
           pipeline;
           "--node";
           Params.node_name p ];
       Base.volume_mounts :=
         if negb volume_disabled
         then [ {| mount_path := source; name := "storage" |} ]
         else [];
       Base.resources :=
         create_resources (Params.requests_cpu p) (Params.requests_memory p)
                          (Params.limits_cpu p) (Params.limits_memory p);
       Base.startup_timeout_seconds := startup_timeout;
       Base.is_delete_operator_pod := true;
       Base.config_file := minimal_pod_template self token;
       Base.node_selectors := Params.node_selector_labels p;
       Base.labels := Params.labels p;
       Base.tolerations := Params.tolerations p;
       Base.annotations := Params.annotations p |}).

(** ** Reading a document line by line *)

(** Python's [s.split(LF)]: the pieces between line feeds. *)
Fixpoint split_lines (s : string) : list string :=
  match s with
  | EmptyString => [EmptyString]
  | String c s' =>
      if Ascii.eqb c LF then EmptyString :: split_lines s'
      else match split_lines s' with
           | l :: ls => String c l :: ls
           | [] => [String c EmptyString]
           end
  end.

(** Python's [s.lstrip(' ')]. *)
Fixpoint lstrip (s : string) : string :=
  match s with
  | String " " s' => lstrip s'
  | _ => s
  end.

Fixpoint no_lf (s : string) : bool :=
  match s with
  | EmptyString => true
  | String c s' => negb (Ascii.eqb c LF) && no_lf s'
  end.

(** Python's [LF.join(lines)]. *)
Definition join_lines (ls : list string) : string :=
  String.concat (String LF EmptyString) ls.

(** [s] without the prefix [p], or [None] when [s] does not start with [p]. *)
Fixpoint strip_prefix (p s : string) : option string :=
  match p with
  | EmptyString => Some s
  | String c p' =>
      match s with
      | String d s' => if Ascii.eqb c d then strip_prefix p' s' else None
      | EmptyString => None
      end
  end.

(** The line that follows the first line equal to [key]. *)
Fixpoint line_after (key : string) (ls : list string) : option string :=
  match ls with
  | [] => None
  | l :: ls' => if String.eqb l key then head ls' else line_after key ls'
  end.

(** The value of [metadata.name]: the line under [metadata:], without its
    key. *)
Definition metadata_name (doc : string) : option string :=
  l ← line_after "metadata:" (split_lines doc);
  strip_prefix "  name: " l.

(** The value of the first [claimName] key of a document. *)
Fixpoint first_claim_name (ls : list string) : option string :=
  match ls with
  | [] => None
  | l :: ls' =>
      match strip_prefix "claimName: " (lstrip l) with
      | Some v => Some v
      | None => first_claim_name ls'
      end
  end.

Definition claim_reference (doc : string) : option string :=
  first_claim_name (split_lines doc).

(** A line that opens a list entry named [MLFLOW_RUN_ID], at any depth. *)
Definition is_mlflow_entry (l : string) : bool :=
  String.eqb (lstrip l) "- name: MLFLOW_RUN_ID".

Definition count_mlflow_entries (doc : string) : nat :=
  length (List.filter is_mlflow_entry (split_lines doc)).

(** A line that is the key [volumes], at any depth. *)
Definition is_volumes_key (l : string) : bool :=
  String.eqb (lstrip l) "volumes:".

Definition count_volumes_keys (doc : string) : nat :=
  length (List.filter is_volumes_key (split_lines doc)).

(** The document, line by line. *)
Definition mlflow_value_line : string :=
  "          value: {{ task_instance.xcom_pull(key=" +:+ DQ +:+ "mlflow_run_id" +:+ DQ +:+ ") }}".

Definition header_lines (task_id : string) (token : Z) : list string :=
  [ EmptyString;
    "apiVersion: v1";
    "kind: Pod";
    "metadata:";
    "  name: " +:+ task_id +:+ "." +:+ hex token;
    "spec:";
    "  containers:";
    "    - name: base";
    "      env:" ].

Definition mlflow_lines : list string :=
  [ EmptyString;
    "        - name: MLFLOW_RUN_ID";
    mlflow_value_line ].

Definition volumes_lines (pvc_name : option string) : list string :=
  [ EmptyString;
    "  volumes:";
    "    - name: storage";
    "      persistentVolumeClaim:";
    "        claimName: " +:+ format_field pvc_name ].

Definition template_lines (self : NodePodOperator) (token : Z) : list string :=
  header_lines (_task_id self) token
  ++ (if _mlflow_enabled self then mlflow_lines else [])
  ++ (if negb (_volume_disabled self) then volumes_lines (_pvc_name self) else [])
  ++ [EmptyString].

(** The names a render inserts into the text are single lines. *)
Definition single_line_names (self : NodePodOperator) : bool :=
  no_lf (_task_id self)
  && (_volume_disabled self || no_lf (format_field (_pvc_name self))).

(** The text before the generated name, and the text after it. *)
Definition metadata_prefix : string :=
  "
apiVersion: v1
kind: Pod
metadata:
  name: ".

Definition template_tail
    (mlflow_enabled volume_disabled : bool) (pvc_name : option string) : string :=
  "
spec:
  containers:
    - name: base
      env:
" +:+ (if mlflow_enabled then mlflow_env_entry else EmptyString)
  +:+ (if negb volume_disabled then volumes_block pvc_name else EmptyString).

(** A call of the constructor that gives the six required parameters and
    leaves every parameter with a default value out. *)
Definition call_with_defaults
    (node_name namespace image image_pull_policy env task_id : string)
    : Params.t :=
  {| Params.node_name := node_name;
     Params.namespace := namespace;
     Params.image := image;
     Params.image_pull_policy := image_pull_policy;
     Params.env := env;
     Params.task_id := task_id;
     Params.pipeline := None;
     Params.pvc_name := None;
     Params.startup_timeout := None;
     Params.volume_disabled := None;
     Params.volume_owner := None;
     Params.mlflow_enabled := None;
     Params.requests_cpu := None;
     Params.requests_memory := None;
     Params.limits_cpu := None;
     Params.limits_memory := None;
     Params.node_selector_labels := None;
     Params.labels := None;
     Params.tolerations := None;
     Params.annotations := None;
     Params.source := None |}.

(** The same call with [volume_disabled=True]. *)
Definition call_without_volume
    (node_name namespace image image_pull_policy env task_id : string)
    : Params.t :=
  {| Params.node_name := node_name;
     Params.namespace := namespace;
     Params.image := image;
     Params.image_pull_policy := image_pull_policy;
     Params.env := env;
     Params.task_id := task_id;
     Params.pipeline := None;
     Params.pvc_name := None;
     Params.startup_timeout := None;
     Params.volume_disabled := Some true;
     Params.volume_owner := None;
     Params.mlflow_enabled := None;
     Params.requests_cpu := None;
     Params.requests_memory := None;
     Params.limits_cpu := None;
     Params.limits_memory := None;
     Params.node_selector_labels := None;
     Params.labels := None;
     Params.tolerations := None;
     Params.annotations := None;
     Params.source := None |}.

(** ** The resource mapping as the specification words it

    Each present input under the key of its own name, each absent input
    without a key.  The keys are the names Airflow gives the four canonical
    resource fields: [request_cpu] for requests.cpu, [request_memory] for
    requests.memory, [limit_cpu] for limits.cpu and [limit_memory] for
    limits.memory. *)
Definition BuildResources_spec
    (requests_cpu requests_memory limits_cpu limits_memory : option string)
    : gmap string string :=
  store_if_truthy "limit_memory" limits_memory
    (store_if_truthy "limit_cpu" limits_cpu
      (store_if_truthy "request_memory" requests_memory
        (store_if_truthy "request_cpu" requests_cpu ∅))).

(** ** Sample operators

    The operator of the worked example: task [train-model], volume enabled,
    claim [shared-pvc], run tracking enabled; the same without a claim name;
    and the same without run tracking. *)
Definition train_model : NodePodOperator :=
  {| _task_id := "train-model"; _volume_disabled := false;
     _pvc_name := Some "shared-pvc"; _mlflow_enabled := true |}.

Definition train_model_no_claim : NodePodOperator :=
  {| _task_id := "train-model"; _volume_disabled := false;
     _pvc_name := None; _mlflow_enabled := true |}.

Definition train_model_untracked : NodePodOperator :=
  {| _task_id := "train-model"; _volume_disabled := false;
     _pvc_name := Some "shared-pvc"; _mlflow_enabled := false |}.

(** ** Reading the results

    [present o] is the value an [if o:] test lets through.  *)
Definition present (o : option string) : option string :=
  if truthy o then o else None.

Definition count_truthy (l : list (option string)) : nat :=
  length (List.filter truthy l).

Definition is_hex_char (c : ascii) : bool :=
  match String.index 0 (String c EmptyString) "0123456789abcdef" with
  | Some _ => true
  | None => false
  end.

(** The sample operator whose claim is named None. *)
Definition train_model_claim_None : NodePodOperator :=
  {| _task_id := "train-model"; _volume_disabled := false;
     _pvc_name := Some "None"; _mlflow_enabled := true |}.

(** ** Names that span several lines

    Nothing in the operator restricts the task identifier to one line; these
    two carry, between a first line [a] and a last line [b], the lines of a
    volumes block and the line of an MLFLOW_RUN_ID entry. *)
Definition task_id_with_volumes_block : string :=
  "a
  volumes:
    - name: storage
      persistentVolumeClaim:
        claimName: c
b".

Definition task_id_with_mlflow_entry : string :=
  "a
        - name: MLFLOW_RUN_ID
b".

(** The call with [volume_disabled=True] and [mlflow_enabled=False]. *)
Definition call_untracked_without_volume
    (node_name namespace image image_pull_policy env task_id : string)
    : Params.t :=
  {| Params.node_name := node_name;
     Params.namespace := namespace;
     Params.image := image;
     Params.image_pull_policy := image_pull_policy;
     Params.env := env;
     Params.task_id := task_id;
     Params.pipeline := None;
     Params.pvc_name := None;
     Params.startup_timeout := None;
     Params.volume_disabled := Some true;
     Params.volume_owner := None;
     Params.mlflow_enabled := Some false;
     Params.requests_cpu := None;
     Params.requests_memory := None;
     Params.limits_cpu := None;
     Params.limits_memory := None;
     Params.node_selector_labels := None;
     Params.labels := None;
     Params.tolerations := None;
     Params.annotations := None;
     Params.source := None |}.

(** * Properties *)

(** ** Strings *)

Local Arguments String.append : simpl nomatch.
Local Arguments hex : simpl never.

Lemma app_assoc_s (a b c : string) : (a +:+ b) +:+ c = a +:+ (b +:+ c).
Proof. induction a as [|x a IH]; simpl; [reflexivity | now rewrite IH]. Qed.

Lemma app_nil_r_s (a : string) : a +:+ EmptyString = a.
Proof. induction a as [|x a IH]; simpl; [reflexivity | now rewrite IH]. Qed.

Lemma list_of_app (a b : string) :
  list_ascii_of_string (a +:+ b)
  = (list_ascii_of_string a ++ list_ascii_of_string b)%list.
Proof. induction a as [|x a IH]; simpl; [reflexivity | now rewrite IH]. Qed.

Lemma list_of_string_inj (a b : string) :
  list_ascii_of_string a = list_ascii_of_string b -> a = b.
Proof.
  intros H. rewrite <- (string_of_list_ascii_of_string a),
    <- (string_of_list_ascii_of_string b). now rewrite H.
Qed.

Lemma app_inj_tail (a b r : string) : a +:+ r = b +:+ r -> a = b.
Proof.
  intros H. apply list_of_string_inj.
  apply (f_equal list_ascii_of_string) in H. rewrite !list_of_app in H.
  now apply List.app_inv_tail in H.
Qed.

Lemma split_lines_no_lf (s : string) : no_lf s = true -> split_lines s = [s].
Proof.
  induction s as [|c s IH]; simpl; [reflexivity|].
  destruct (Ascii.eqb c LF); simpl; [discriminate|].
  intros H. now rewrite (IH H).
Qed.

Lemma split_lines_line (a b : string) :
  no_lf a = true -> split_lines (a +:+ String LF b) = a :: split_lines b.
Proof.
  induction a as [|c a IH]; simpl; [reflexivity|].
  destruct (Ascii.eqb c LF); simpl; [discriminate|].
  intros H. now rewrite (IH H).
Qed.

Lemma split_join (ls : list string) :
  ls <> [] -> Forall (fun l => no_lf l = true) ls ->
  split_lines (join_lines ls) = ls.
Proof.
  induction ls as [|l ls IH]; [congruence|].
  intros _ Hall. inversion Hall as [|? ? Hl Hls]; subst.
  destruct ls as [|l' ls].
  - simpl. now apply split_lines_no_lf.
  - change (join_lines (l :: l' :: ls))
      with (l +:+ String LF (join_lines (l' :: ls))).
    rewrite split_lines_line by assumption.
    f_equal. apply IH; [discriminate | assumption].
Qed.

Lemma no_lf_app (a b : string) : no_lf (a +:+ b) = no_lf a && no_lf b.
Proof. induction a as [|c a IH]; simpl; [reflexivity|]. rewrite IH. now destruct (Ascii.eqb c LF). Qed.

(** ** Hexadecimal rendering *)

Lemma hex_digit_not_lf (d : Z) : Ascii.eqb (hex_digit d) LF = false.
Proof.
  destruct d as [|p|p]; try reflexivity.
  do 5 (try destruct p as [p|p|]; try reflexivity).
Qed.

Lemma hex_digit_inj (a b : Z) :
  0 <= a < 16 -> 0 <= b < 16 -> hex_digit a = hex_digit b -> a = b.
Proof.
  intros Ha Hb.
  assert (Ea : a = 0 \/ a = 1 \/ a = 2 \/ a = 3 \/ a = 4 \/ a = 5 \/ a = 6
               \/ a = 7 \/ a = 8 \/ a = 9 \/ a = 10 \/ a = 11 \/ a = 12
               \/ a = 13 \/ a = 14 \/ a = 15) by lia.
  assert (Eb : b = 0 \/ b = 1 \/ b = 2 \/ b = 3 \/ b = 4 \/ b = 5 \/ b = 6
               \/ b = 7 \/ b = 8 \/ b = 9 \/ b = 10 \/ b = 11 \/ b = 12
               \/ b = 13 \/ b = 14 \/ b = 15) by lia.
  clear Ha Hb.
  repeat (destruct Ea as [-> | Ea]); [.. | subst a];
    repeat (destruct Eb as [-> | Eb]); try subst b;
    first [reflexivity | discriminate].
Qed.

Lemma hex_digits_rev_inj (k : nat) :
  forall a b : Z,
    0 <= a < 16 ^ Z.of_nat k -> 0 <= b < 16 ^ Z.of_nat k ->
    hex_digits_rev k a = hex_digits_rev k b -> a = b.
Proof.
  induction k as [|k IH]; intros a b Ha Hb H.
  - simpl in Ha, Hb. lia.
  - rewrite Nat2Z.inj_succ, Z.pow_succ_r in Ha, Hb by lia.
    simpl in H. injection H as Hd Hr.
    apply hex_digit_inj in Hd; [| apply Z.mod_pos_bound; lia ..].
    apply IH in Hr.
    + rewrite (Z.div_mod a 16), (Z.div_mod b 16) by lia. congruence.
    + split; [apply Z.div_pos; lia | apply Z.div_lt_upper_bound; lia].
    + split; [apply Z.div_pos; lia | apply Z.div_lt_upper_bound; lia].
Qed.

Lemma hex_inj (a b : Z) :
  is_uuid_int a -> is_uuid_int b -> hex a = hex b -> a = b.
Proof.
  unfold is_uuid_int, hex. intros Ha Hb H.
  apply (f_equal list_ascii_of_string) in H.
  rewrite !list_ascii_of_string_of_list_ascii in H.
  apply (f_equal (@rev ascii)) in H. rewrite !rev_involutive in H.
  apply (hex_digits_rev_inj 32); [ .. | exact H].
  - change (16 ^ Z.of_nat 32) with (2 ^ 128). exact Ha.
  - change (16 ^ Z.of_nat 32) with (2 ^ 128). exact Hb.
Qed.

Lemma no_lf_of_list (l : list ascii) :
  Forall (fun c => Ascii.eqb c LF = false) l ->
  no_lf (string_of_list_ascii l) = true.
Proof.
  induction 1 as [|c l Hc _ IH]; simpl; [reflexivity|]. now rewrite Hc, IH.
Qed.

Lemma hex_digits_rev_not_lf (k : nat) (n : Z) :
  Forall (fun c => Ascii.eqb c LF = false) (hex_digits_rev k n).
Proof.
  revert n; induction k as [|k IH]; intros n; simpl; constructor;
    [apply hex_digit_not_lf | apply IH].
Qed.

Lemma hex_no_lf (n : Z) : no_lf (hex n) = true.
Proof.
  unfold hex. apply no_lf_of_list, List.Forall_rev, hex_digits_rev_not_lf.
Qed.

(** ** The rendered document, line by line *)

Lemma minimal_pod_template_join (self : NodePodOperator) (token : Z) :
  minimal_pod_template self token = join_lines (template_lines self token).
Proof.
  destruct self as [tid vd pvc ml].
  unfold minimal_pod_template, template_lines, header_lines, pod_header,
    mlflow_env_entry, mlflow_lines, mlflow_value_line, volumes_block,
    volumes_lines, join_lines, DQ, LF.
  generalize (hex token) (format_field pvc). intros h c.
  destruct ml, vd; simpl;
    repeat (rewrite !app_assoc_s; simpl); reflexivity.
Qed.

Lemma template_lines_no_lf (self : NodePodOperator) (token : Z) :
  single_line_names self = true ->
  Forall (fun l => no_lf l = true) (template_lines self token).
Proof.
  destruct self as [tid vd pvc ml]. unfold single_line_names.
  cbv [_task_id _volume_disabled _pvc_name _mlflow_enabled].
  intros H. apply andb_prop in H as [Htid Hpvc].
  assert (Hname : no_lf ("  name: " +:+ tid +:+ "." +:+ hex token) = true).
  { rewrite !no_lf_app, Htid, hex_no_lf. reflexivity. }
  unfold template_lines, header_lines, mlflow_lines, volumes_lines.
  cbv [_task_id _volume_disabled _pvc_name _mlflow_enabled].
  generalize dependent (hex token). intros h Hname.
  destruct ml, vd; cbn [negb List.app orb] in *;
    repeat (apply List.Forall_cons);
    try apply List.Forall_nil; try reflexivity; try exact Hname;
    rewrite no_lf_app, Hpvc; reflexivity.
Qed.

Lemma split_template (self : NodePodOperator) (token : Z) :
  single_line_names self = true ->
  split_lines (minimal_pod_template self token) = template_lines self token.
Proof.
  intros H. rewrite minimal_pod_template_join. apply split_join.
  - unfold template_lines, header_lines. discriminate.
  - now apply template_lines_no_lf.
Qed.

(** ** [create_resources] *)

(** What the mapping holds under each of the four keys: the two requests
    under their own keys, each limit under the key of the other. *)
Lemma create_resources_lookup (rc rm lc lm : option string) :
  let r := create_resources rc rm lc lm in
  r !! "request_cpu" = (if truthy rc then rc else None)
  /\ r !! "request_memory" = (if truthy rm then rm else None)
  /\ r !! "limit_memory" = (if truthy lc then lc else None)
  /\ r !! "limit_cpu" = (if truthy lm then lm else None).
Proof.
  destruct rc as [[|? ?]|], rm as [[|? ?]|], lc as [[|? ?]|], lm as [[|? ?]|];
    vm_compute; repeat split.
Qed.

(** The two requests are where the specification puts them. *)
Lemma create_resources_requests (rc rm lc lm : option string) :
  create_resources rc rm lc lm !! "request_cpu"
    = BuildResources_spec rc rm lc lm !! "request_cpu"
  /\ create_resources rc rm lc lm !! "request_memory"
    = BuildResources_spec rc rm lc lm !! "request_memory".
Proof.
  destruct rc as [[|? ?]|], rm as [[|? ?]|], lc as [[|? ?]|], lm as [[|? ?]|];
    vm_compute; repeat split.
Qed.

(** C1, at a call that gives only a CPU limit: the limit is stored under
    the memory key and the CPU key stays absent, where the specification
    asks for the CPU key to hold it and no memory key. *)
Theorem create_resources_cpu_limit_under_memory_key :
  create_resources None None (Some "500m") None = {[ "limit_memory" := "500m" ]}
  /\ create_resources None None (Some "500m") None !! "limit_cpu" = None
  /\ create_resources None None (Some "500m") None !! "limit_memory" = Some "500m"
  /\ BuildResources_spec None None (Some "500m") None !! "limit_cpu" = Some "500m"
  /\ BuildResources_spec None None (Some "500m") None !! "limit_memory" = None.
Proof. repeat split. Qed.

(** ** [create_security_context] *)

Lemma create_security_context_disabled (g : gmap string pyobj) (owner : Z) :
  create_security_context g true owner = Ok [].
Proof. reflexivity. Qed.

(** Were [fs_group] bound, its value would be the one key of the mapping. *)
Lemma create_security_context_bound
    (g : gmap string pyobj) (k : pyobj) (owner : Z) :
  g !! "fs_group" = Some k ->
  create_security_context g false owner = Ok [(k, owner)].
Proof.
  intros H. unfold create_security_context, load_global; simpl.
  now rewrite H.
Qed.

Lemma fs_group_unbound : module_globals !! "fs_group" = None.
Proof. reflexivity. Qed.

(** C2: with the volume enabled the helper returns no mapping at all.  The
    key of the one entry is the name [fs_group], which the module binds
    nowhere, so evaluating the mapping raises [NameError]. *)
Theorem create_security_context_enabled_raises (owner : Z) :
  create_security_context module_globals false owner
  = Raise (NameError "fs_group").
Proof. reflexivity. Qed.

(** ** [__init__] *)

(** C3: constructing the operator with the volume enabled, which is the
    default, raises [NameError] before the base class is reached. *)
Theorem init_raises_when_volume_enabled (p : Params.t) (token : Z) :
  default false (Params.volume_disabled p) = false ->
  init module_globals p token = Raise (NameError "fs_group").
Proof. intros H. unfold init. rewrite H. reflexivity. Qed.

Lemma init_raises_when_volume_enabled_witness :
  init module_globals
    (call_with_defaults "split" "airflow" "registry/pipelines:1" "Always"
       "pipelines" "split")
    255
  = Raise (NameError "fs_group").
Proof. apply init_raises_when_volume_enabled. reflexivity. Defined.

(** Were [fs_group] bound, construction with the volume enabled would give
    one mount of the configured path under the name storage. *)
Lemma init_volume_enabled_if_bound
    (g : gmap string pyobj) (k : pyobj) (p : Params.t) (token : Z) :
  g !! "fs_group" = Some k ->
  default false (Params.volume_disabled p) = false ->
  exists self kw,
    init g p token = Ok (self, kw)
    /\ Base.volume_mounts kw
       = [ {| mount_path := default "/home/kedro/data" (Params.source p);
              name := "storage" |} ]
    /\ Base.security_context kw = [(k, default 0 (Params.volume_owner p))].
Proof.
  intros Hk Hv. unfold init. rewrite Hv.
  rewrite (create_security_context_bound g k _ Hk).
  eexists _, _. repeat split.
Qed.

(** The command line, for every call: whenever the base class is reached
    its [arguments] are the eight words, and it is not reached only when the
    security context raised. *)
Lemma init_cases (g : gmap string pyobj) (p : Params.t) (token : Z) :
  match init g p token with
  | Ok (self, kw) =>
      Base.arguments kw
      = [ "kedro"; "run"; "-e"; Params.env p; "--pipeline";
          default "__default__" (Params.pipeline p); "--node";
          Params.node_name p ]
      /\ (default false (Params.volume_disabled p) = true
          \/ is_Some (g !! "fs_group"))
  | Raise e =>
      e = NameError "fs_group"
      /\ default false (Params.volume_disabled p) = false
      /\ g !! "fs_group" = None
  end.
Proof.
  unfold init, create_security_context, load_global.
  destruct (default false (Params.volume_disabled p)); simpl.
  - split; [reflexivity | now left].
  - destruct (g !! "fs_group") as [k|]; simpl.
    + split; [reflexivity | right; now exists k].
    + repeat split.
Qed.

(** C5: the arguments of the built specification are exactly the eight
    words [kedro run -e env --pipeline pipeline --node node_name] in that
    order, whatever the optional parameters are; the one case in which no
    specification is built is the unbound name of the security context. *)
Theorem arguments_exact (g : gmap string pyobj) (p : Params.t) (token : Z) :
  match init g p token with
  | Ok (self, kw) =>
      Base.arguments kw
      = [ "kedro"; "run"; "-e"; Params.env p; "--pipeline";
          default "__default__" (Params.pipeline p); "--node";
          Params.node_name p ]
      /\ length (Base.arguments kw) = 8%nat
  | Raise e =>
      e = NameError "fs_group"
      /\ default false (Params.volume_disabled p) = false
      /\ g !! "fs_group" = None
  end.
Proof.
  pose proof (init_cases g p token) as H.
  destruct (init g p token) as [[self kw]|e]; [|exact H].
  destruct H as [H _]. split; [exact H | now rewrite H].
Qed.

(** C10: a call that leaves [pipeline] out passes [__default__] as the word
    after [--pipeline]. *)
Theorem pipeline_defaults_to_default
    (g : gmap string pyobj) (p : Params.t) (token : Z) :
  Params.pipeline p = None ->
  match init g p token with
  | Ok (self, kw) =>
      Base.arguments kw
      = [ "kedro"; "run"; "-e"; Params.env p; "--pipeline";
          "__default__"; "--node"; Params.node_name p ]
      /\ nth_error (Base.arguments kw) 4 = Some "--pipeline"
      /\ nth_error (Base.arguments kw) 5 = Some "__default__"
  | Raise e =>
      e = NameError "fs_group"
      /\ default false (Params.volume_disabled p) = false
  end.
Proof.
  intros Hp. pose proof (init_cases g p token) as H.
  destruct (init g p token) as [[self kw]|e].
  - destruct H as [H _]. rewrite Hp in H. simpl in H.
    split; [exact H | now rewrite H].
  - destruct H as (He & Hv & _). now split.
Qed.

Lemma pipeline_defaults_to_default_witness :
  exists self kw,
    init module_globals
      (call_without_volume "split" "airflow" "registry/pipelines:1" "Always"
         "pipelines" "split") 255
    = Ok (self, kw)
    /\ Base.arguments kw
       = [ "kedro"; "run"; "-e"; "pipelines"; "--pipeline"; "__default__";
           "--node"; "split" ].
Proof.
  pose proof (pipeline_defaults_to_default module_globals
    (call_without_volume "split" "airflow" "registry/pipelines:1" "Always"
       "pipelines" "split") 255 eq_refl) as H.
  destruct (init module_globals _ 255) as [[self kw]|e] eqn:E.
  - exists self, kw. split; [reflexivity | exact (proj1 H)].
  - destruct H as [_ H]. discriminate H.
Defined.

(** ** The generated name *)

(** Every render is the same text around the generated name. *)
Lemma template_around_name (self : NodePodOperator) (token : Z) :
  minimal_pod_template self token
  = metadata_prefix +:+ (_task_id self +:+ "." +:+ hex token)
    +:+ template_tail (_mlflow_enabled self) (_volume_disabled self)
          (_pvc_name self).
Proof.
  destruct self as [tid vd pvc ml].
  unfold minimal_pod_template, pod_header, metadata_prefix, template_tail.
  cbv [_task_id _volume_disabled _pvc_name _mlflow_enabled].
  generalize (hex token) mlflow_env_entry (volumes_block pvc). intros h m v.
  destruct ml, vd; simpl;
    repeat (rewrite ?app_assoc_s, ?app_nil_r_s; simpl); reflexivity.
Qed.

Lemma generated_name_inj (tid : string) (t1 t2 : Z) :
  is_uuid_int t1 -> is_uuid_int t2 ->
  tid +:+ "." +:+ hex t1 = tid +:+ "." +:+ hex t2 -> t1 = t2.
Proof.
  intros H1 H2 H. apply String.app_inj in H. apply String.app_inj in H.
  now apply hex_inj.
Qed.

Lemma split_join_cons (l : string) (ls : list string) :
  no_lf l = true -> ls <> [] ->
  split_lines (join_lines (l :: ls)) = l :: split_lines (join_lines ls).
Proof.
  intros Hl Hls. destruct ls as [|l' ls]; [congruence|].
  change (join_lines (l :: l' :: ls))
    with (l +:+ String LF (join_lines (l' :: ls))).
  now apply split_lines_line.
Qed.

(** The name under [metadata:] of a render is the task identifier, a dot and
    the 32 hexadecimal digits of the token. *)
Lemma metadata_name_render (self : NodePodOperator) (token : Z) :
  no_lf (_task_id self) = true ->
  metadata_name (minimal_pod_template self token)
  = Some (_task_id self +:+ "." +:+ hex token).
Proof.
  intros Htid. unfold metadata_name.
  rewrite minimal_pod_template_join. unfold template_lines, header_lines.
  assert (Hname : no_lf ("  name: " +:+ _task_id self +:+ "." +:+ hex token) = true).
  { rewrite !no_lf_app, Htid, hex_no_lf. reflexivity. }
  generalize dependent (hex token). intros h Hname.
  cbn [List.app].
  rewrite !split_join_cons by (first [reflexivity | exact Hname | discriminate]).
  generalize (_task_id self). intros tid.
  match goal with |- context [split_lines ?x] => generalize (split_lines x) end.
  intros rest. reflexivity.
Qed.

(** C7: two renders of one operator with distinct 128-bit tokens carry
    distinct names; each name is the task identifier, the separator dot and
    the hexadecimal token, it sits in the text right after the metadata key,
    the two texts differ, and for a single-line task identifier the name read
    back from the [metadata:] block of each text is that name. *)
Theorem generated_names_differ (self : NodePodOperator) (t1 t2 : Z) :
  is_uuid_int t1 -> is_uuid_int t2 -> t1 <> t2 ->
  let n1 := _task_id self +:+ "." +:+ hex t1 in
  let n2 := _task_id self +:+ "." +:+ hex t2 in
  n1 <> n2
  /\ (exists post,
        minimal_pod_template self t1 = metadata_prefix +:+ n1 +:+ post
        /\ minimal_pod_template self t2 = metadata_prefix +:+ n2 +:+ post)
  /\ minimal_pod_template self t1 <> minimal_pod_template self t2
  /\ (no_lf (_task_id self) = true ->
        metadata_name (minimal_pod_template self t1) = Some n1
        /\ metadata_name (minimal_pod_template self t2) = Some n2).
Proof.
  intros H1 H2 Hne n1 n2.
  assert (Hn : n1 <> n2).
  { intros E. apply Hne. now apply (generated_name_inj (_task_id self)). }
  split; [exact Hn|]. split; [|split].
  - exists (template_tail (_mlflow_enabled self) (_volume_disabled self)
              (_pvc_name self)).
    split; apply template_around_name.
  - rewrite !template_around_name. fold n1 n2. intros E.
    apply String.app_inj in E. apply app_inj_tail in E. contradiction.
  - intros Htid. split; now apply metadata_name_render.
Qed.

Lemma generated_names_differ_witness :
  metadata_name (minimal_pod_template train_model 255)
    = Some "train-model.000000000000000000000000000000ff"
  /\ metadata_name (minimal_pod_template train_model (2 ^ 127))
    = Some "train-model.80000000000000000000000000000000"
  /\ minimal_pod_template train_model 255
     <> minimal_pod_template train_model (2 ^ 127).
Proof.
  assert (U1 : is_uuid_int 255) by (unfold is_uuid_int; lia).
  assert (U2 : is_uuid_int (2 ^ 127)) by (unfold is_uuid_int; lia).
  assert (Hne : 255 <> 2 ^ 127) by lia.
  destruct (generated_names_differ train_model 255 (2 ^ 127) U1 U2 Hne)
    as (_ & _ & Hdoc & Hmeta).
  destruct (Hmeta eq_refl) as [M1 M2].
  split; [exact M1 | split; [exact M2 | exact Hdoc]].
Defined.

(** C9: around the generated name every render of one operator is the same
    text, fixed by the two flags and the claim name; line by line, two
    renders of an operator with single-line names have the same number of
    lines and agree on every line but the fifth, which is the name line, and
    the container entry named base is the eighth line of both. *)
Theorem renders_differ_only_in_name (self : NodePodOperator) (t1 t2 : Z) :
  (forall t,
     minimal_pod_template self t
     = metadata_prefix +:+ (_task_id self +:+ "." +:+ hex t)
       +:+ template_tail (_mlflow_enabled self) (_volume_disabled self)
             (_pvc_name self))
  /\ (single_line_names self = true ->
      let l1 := split_lines (minimal_pod_template self t1) in
      let l2 := split_lines (minimal_pod_template self t2) in
      length l1 = length l2
      /\ (forall i, i <> 4%nat -> nth_error l1 i = nth_error l2 i)
      /\ nth_error l1 4 = Some ("  name: " +:+ _task_id self +:+ "." +:+ hex t1)
      /\ nth_error l2 4 = Some ("  name: " +:+ _task_id self +:+ "." +:+ hex t2)
      /\ nth_error l1 7 = Some "    - name: base"
      /\ nth_error l2 7 = Some "    - name: base").
Proof.
  split; [intros t; apply template_around_name|].
  intros Hs l1 l2. subst l1 l2. rewrite !split_template by exact Hs.
  unfold template_lines, header_lines.
  generalize (hex t1) (hex t2). intros h1 h2.
  split; [|split; [|repeat split]].
  - rewrite !length_app. reflexivity.
  - intros i Hi.
    destruct i as [|[|[|[|[|i]]]]]; try reflexivity. congruence.
Qed.

Lemma renders_differ_only_in_name_witness :
  nth_error (split_lines (minimal_pod_template train_model 255)) 16
  = nth_error (split_lines (minimal_pod_template train_model (2 ^ 127))) 16
  /\ nth_error (split_lines (minimal_pod_template train_model 255)) 16
     = Some "        claimName: shared-pvc".
Proof.
  destruct (renders_differ_only_in_name train_model 255 (2 ^ 127)) as [_ H].
  destruct (H eq_refl) as (_ & Hi & _).
  split; [apply Hi; discriminate | reflexivity].
Defined.

(** ** The volume *)




(** C8, as amended: with the volume enabled every render ends with a
    volumes block that binds the name storage to a persistent volume claim
    whose [claimName] is the formatted claim name; an absent claim name is
    formatted as the word None.  For single-line names the block is the last
    five lines of the text, its [volumes:] key is the only one, and the
    claim name read back from the text is the formatted claim name. *)
Theorem volumes_block_when_enabled (self : NodePodOperator) (token : Z) :
  _volume_disabled self = false ->
  let doc := minimal_pod_template self token in
  (exists pre, doc = pre +:+ volumes_block (_pvc_name self))
  /\ (_pvc_name self = None ->
      exists pre,
        doc = pre +:+ "
  volumes:
    - name: storage
      persistentVolumeClaim:
        claimName: None
")
  /\ (single_line_names self = true ->
      (exists pre,
         split_lines doc
         = (pre ++ [ "  volumes:";
                     "    - name: storage";
                     "      persistentVolumeClaim:";
                     "        claimName: " +:+ format_field (_pvc_name self);
                     EmptyString ])%list)
      /\ count_volumes_keys doc = 1%nat
      /\ claim_reference doc = Some (format_field (_pvc_name self))).
Proof.
  intros Hv doc.
  assert (Hend : exists pre, doc = pre +:+ volumes_block (_pvc_name self)).
  { subst doc. unfold minimal_pod_template. rewrite Hv.
    cbn [negb]. eexists. reflexivity. }
  split; [exact Hend|]. split.
  - intros Hp. destruct Hend as [pre Hpre]. exists pre.
    rewrite Hpre, Hp. reflexivity.
  - intros Hs. subst doc.
    unfold count_volumes_keys, claim_reference.
    rewrite (split_template self token Hs).
    unfold template_lines, header_lines, mlflow_lines, volumes_lines.
    rewrite Hv. cbn [negb].
    generalize (hex token) (_task_id self) (format_field (_pvc_name self)).
    intros h tid c.
    destruct (_mlflow_enabled self).
    + split; [|split; reflexivity].
      eexists (_ :: _ :: _ :: _ :: _ :: _ :: _ :: _ :: _ :: _ :: _ :: _ :: _ :: []).
      reflexivity.
    + split; [|split; reflexivity].
      eexists (_ :: _ :: _ :: _ :: _ :: _ :: _ :: _ :: _ :: _ :: []).
      reflexivity.
Qed.

Lemma volumes_block_when_enabled_witness :
  claim_reference (minimal_pod_template train_model_no_claim 255) = Some "None"
  /\ count_volumes_keys (minimal_pod_template train_model_no_claim 255) = 1%nat.
Proof.
  destruct (volumes_block_when_enabled train_model_no_claim 255 eq_refl)
    as (_ & _ & H).
  destruct (H eq_refl) as (_ & Hk & Hc).
  split; [exact Hc | exact Hk].
Defined.

(** C8, as stated, at an operator with the volume enabled and no claim
    name: the claim reference of the rendered text is the word None, which
    is a string of the document format and not its null, and no line of the
    text gives the claim as null. *)
Lemma absent_claim_name_is_not_rendered_null :
  _volume_disabled train_model_no_claim = false
  /\ _pvc_name train_model_no_claim = None
  /\ claim_reference (minimal_pod_template train_model_no_claim 255)
     = Some "None"
  /\ claim_reference (minimal_pod_template train_model_no_claim 255)
     <> Some "null"
  /\ ~ In "        claimName: null"
         (split_lines (minimal_pod_template train_model_no_claim 255))
  /\ In "        claimName: None"
        (split_lines (minimal_pod_template train_model_no_claim 255)).
Proof.
  vm_compute. repeat split; try discriminate.
  - intros H. repeat (destruct H as [H|H]; [discriminate H|]). exact H.
  - do 16 right. left. reflexivity.
Qed.

(** ** The run identifier *)




(** * Further properties *)

(** ** [create_resources], for every input *)

Lemma store_if_truthy_lookup (key : string) (v : option string)
    (d : gmap string string) (k : string) :
  store_if_truthy key v d !! k
  = if decide (k = key)
    then match present v with Some x => Some x | None => d !! k end
    else d !! k.
Proof.
  unfold store_if_truthy, present.
  destruct v as [[|c s]|]; simpl; case_decide; subst; try reflexivity.
  - now rewrite lookup_insert_eq.
  - now rewrite lookup_insert_ne by congruence.
Qed.

(** X1: what the mapping holds under ANY key.  A truthy request sits under
    its own key, a truthy CPU limit under [limit_memory], a truthy memory
    limit under [limit_cpu], and every other key is missing. *)
Theorem create_resources_lookup_any
    (rc rm lc lm : option string) (k : string) :
  create_resources rc rm lc lm !! k
  = if decide (k = "limit_cpu") then present lm
    else if decide (k = "limit_memory") then present lc
    else if decide (k = "request_memory") then present rm
    else if decide (k = "request_cpu") then present rc
    else None.
Proof.
  unfold create_resources. rewrite !store_if_truthy_lookup, lookup_empty.
  repeat case_decide; subst; try discriminate;
    repeat match goal with |- context [present ?o] => destruct (present o) end;
    reflexivity.
Qed.

Lemma present_Some (o : option string) (v : string) :
  present o = Some v -> o = Some v /\ v <> EmptyString.
Proof.
  unfold present. destruct o as [[|c s]|]; simpl; intros H;
    try discriminate. injection H as <-. split; [reflexivity | discriminate].
Qed.

(** X2: an entry of the mapping is never empty and never invented: its
    value is a non-empty string that was passed in, under one of the four
    keys. *)
Theorem create_resources_entry
    (rc rm lc lm : option string) (k v : string) :
  create_resources rc rm lc lm !! k = Some v ->
  v <> EmptyString
  /\ ((k = "request_cpu" /\ rc = Some v)
      \/ (k = "request_memory" /\ rm = Some v)
      \/ (k = "limit_memory" /\ lc = Some v)
      \/ (k = "limit_cpu" /\ lm = Some v)).
Proof.
  intros Hv. rewrite create_resources_lookup_any in Hv.
  repeat case_decide; subst; try discriminate;
    apply present_Some in Hv as [-> Hne]; split; auto 10.
Qed.

Lemma create_resources_entry_witness :
  create_resources (Some "250m") None (Some "1") (Some "2Gi") !! "limit_cpu"
  = Some "2Gi"
  /\ "2Gi" <> EmptyString.
Proof.
  split; [reflexivity|].
  exact (proj1 (create_resources_entry (Some "250m") None (Some "1")
                  (Some "2Gi") "limit_cpu" "2Gi" eq_refl)).
Defined.

(** X3: the four keys never collide: the mapping has as many entries as
    there are truthy inputs, and it is empty exactly when no input is
    truthy, an empty string counting as absent. *)
Theorem create_resources_size (rc rm lc lm : option string) :
  size (create_resources rc rm lc lm) = count_truthy [rc; rm; lc; lm]
  /\ (create_resources rc rm lc lm = ∅
      <-> truthy rc = false /\ truthy rm = false
          /\ truthy lc = false /\ truthy lm = false).
Proof.
  assert (Hsize : size (create_resources rc rm lc lm)
                  = count_truthy [rc; rm; lc; lm]).
  { destruct rc as [[|? ?]|], rm as [[|? ?]|], lc as [[|? ?]|],
      lm as [[|? ?]|]; vm_compute; reflexivity. }
  split; [exact Hsize|]. rewrite <- map_size_empty_iff, Hsize.
  unfold count_truthy; simpl.
  destruct (truthy rc), (truthy rm), (truthy lc), (truthy lm); simpl;
    split; intros H; try discriminate; try tauto;
    destruct H as (? & ? & ? & ?); discriminate.
Qed.

(** ** Errors of [create_security_context] and [__init__] *)

(** X4: the helper raises in exactly one situation, the volume enabled and
    the name [fs_group] unbound, and then the error is the [NameError] of
    that name; the owner id plays no part. *)
Theorem create_security_context_raise_iff
    (g : gmap string pyobj) (volume_disabled : bool) (owner : Z) (e : exn) :
  create_security_context g volume_disabled owner = Raise e
  <-> volume_disabled = false /\ g !! "fs_group" = None
      /\ e = NameError "fs_group".
Proof.
  unfold create_security_context, load_global.
  destruct volume_disabled; simpl.
  - split; [discriminate | intros (H & _); discriminate H].
  - destruct (g !! "fs_group") as [k|]; simpl.
    + split; [discriminate | intros (_ & H & _); discriminate H].
    + split.
      * intros H. injection H as <-. auto.
      * intros (_ & _ & ->). reflexivity.
Qed.

(** X5: in the module as it is, [__init__] gets as far as calling the base
    class exactly for the calls that pass [volume_disabled=True]: only for
    them are the keyword arguments of that call evaluated without an error.
    For every other call, one that leaves the parameter out included, it
    raises the [NameError] of [fs_group] before the base class is called. *)
Theorem init_reaches_base_class_iff (p : Params.t) (token : Z) :
  ((exists self kw, init module_globals p token = Ok (self, kw))
   <-> Params.volume_disabled p = Some true)
  /\ (init module_globals p token = Raise (NameError "fs_group")
      <-> Params.volume_disabled p <> Some true).
Proof.
  pose proof (init_cases module_globals p token) as H.
  assert (Hd : default false (Params.volume_disabled p) = true
               <-> Params.volume_disabled p = Some true).
  { destruct (Params.volume_disabled p) as [[|]|]; simpl;
      split; intros E; first [reflexivity | discriminate E]. }
  destruct (init module_globals p token) as [[self kw]|e].
  - destruct H as [_ [H|H]].
    + apply Hd in H. split; split.
      * intros _. exact H.
      * intros _. now exists self, kw.
      * discriminate.
      * intros Hn. contradiction.
    + rewrite fs_group_unbound in H. destruct H as [x Hx]. discriminate Hx.
  - destruct H as (-> & Hv & _).
    assert (Hn : Params.volume_disabled p <> Some true).
    { intros E. apply Hd in E. rewrite E in Hv. discriminate Hv. }
    split; split.
    + intros (self & kw & E). discriminate E.
    + intros E. contradiction.
    + intros _. exact Hn.
    + intros _. reflexivity.
Qed.

(** ** What [__init__] hands to the base class *)

(** X6: the text given as [config_file] is one render, made during
    construction with the token drawn then.  A later access of the property
    draws another token and gives a different text, so the name in
    [config_file] is not the name of any later render; for a single-line
    task identifier that name is the [name] keyword argument, a dot and the
    construction-time token. *)
Theorem init_config_file_is_a_snapshot
    (g : gmap string pyobj) (p : Params.t) (token : Z)
    (self : NodePodOperator) (kw : Base.kwargs) :
  init g p token = Ok (self, kw) ->
  Base.config_file kw = minimal_pod_template self token
  /\ (forall later,
        is_uuid_int token -> is_uuid_int later -> later <> token ->
        minimal_pod_template self later <> Base.config_file kw)
  /\ (no_lf (Params.task_id p) = true ->
      metadata_name (Base.config_file kw)
      = Some (Base.name kw +:+ "." +:+ hex token)).
Proof.
  intros E. unfold init in E.
  destruct (create_security_context g _ _) as [sc|e]; [|discriminate E].
  injection E as <- <-.
  cbn [Base.config_file Base.name].
  split; [reflexivity|]. split.
  - intros later Ht Hl Hne E. rewrite !template_around_name in E.
    apply String.app_inj in E. apply app_inj_tail in E.
    apply generated_name_inj in E; [contradiction | assumption ..].
  - intros Htid. now rewrite metadata_name_render.
Qed.

Lemma init_config_file_is_a_snapshot_witness :
  exists self kw,
    init module_globals
      (call_without_volume "split" "airflow" "registry/pipelines:1" "Always"
         "pipelines" "split") 255
    = Ok (self, kw)
    /\ metadata_name (Base.config_file kw)
       = Some "split.000000000000000000000000000000ff"
    /\ minimal_pod_template self 256 <> Base.config_file kw.
Proof.
  destruct (init module_globals
      (call_without_volume "split" "airflow" "registry/pipelines:1" "Always"
         "pipelines" "split") 255) as [[self kw]|e] eqn:E;
    [|discriminate E].
  exists self, kw. split; [reflexivity|].
  destruct (init_config_file_is_a_snapshot _ _ _ _ _ E) as (_ & Hl & Hm).
  split.
  - injection E as <- <-. exact (Hm eq_refl).
  - apply Hl; unfold is_uuid_int; lia.
Defined.

(** X7: what reaches the base class is consistent with what the operator
    keeps.  The display name, the task id and the stored task id are the
    same string; the pod is always deleted after it ran; and the stored
    volume flag, the mount list and the security context agree: with the
    flag set both are empty, without it each has one entry, the mount being
    the configured path under the name storage. *)
Theorem init_keeps_volume_invariant
    (g : gmap string pyobj) (p : Params.t) (token : Z)
    (self : NodePodOperator) (kw : Base.kwargs) :
  init g p token = Ok (self, kw) ->
  Base.name kw = Base.task_id kw
  /\ _task_id self = Base.name kw
  /\ Base.is_delete_operator_pod kw = true
  /\ (if _volume_disabled self
      then Base.volume_mounts kw = [] /\ Base.security_context kw = []
      else Base.volume_mounts kw
           = [ {| mount_path := default "/home/kedro/data" (Params.source p);
                  name := "storage" |} ]
           /\ exists k,
                g !! "fs_group" = Some k
                /\ Base.security_context kw
                   = [(k, default 0 (Params.volume_owner p))]).
Proof.
  intros E. unfold init, create_security_context, load_global in E.
  destruct (default false (Params.volume_disabled p)) eqn:Hv;
    cbn [negb mbind result_bind mret result_ret] in E.
  - injection E as <- <-. cbn. repeat split.
  - destruct (g !! "fs_group") as [k|] eqn:Hk;
      cbn [negb mbind result_bind mret result_ret] in E; [|discriminate E].
    injection E as <- <-. cbn.
    split; [reflexivity|]. split; [reflexivity|]. split; [reflexivity|].
    split; [reflexivity|]. exists k. split; reflexivity.
Qed.

Lemma init_keeps_volume_invariant_witness :
  exists self kw,
    init module_globals
      (call_without_volume "split" "airflow" "registry/pipelines:1" "Always"
         "pipelines" "split") 255
    = Ok (self, kw)
    /\ Base.name kw = Base.task_id kw
    /\ Base.volume_mounts kw = [].
Proof.
  destruct (init module_globals
      (call_without_volume "split" "airflow" "registry/pipelines:1" "Always"
         "pipelines" "split") 255) as [[self kw]|e] eqn:E;
    [|discriminate E].
  exists self, kw. split; [reflexivity|].
  destruct (init_keeps_volume_invariant _ _ _ _ _ E) as (Hn & _ & _ & Hv).
  split; [exact Hn|].
  injection E as <- <-. exact (proj1 Hv).
Defined.

(** ** The shape of a render *)

Lemma length_app_s (a b : string) :
  String.length (a +:+ b) = (String.length a + String.length b)%nat.
Proof. induction a as [|c a IH]; simpl; [reflexivity | now rewrite IH]. Qed.

Lemma hex_digit_is_hex (d : Z) : is_hex_char (hex_digit d) = true.
Proof.
  destruct d as [|p|p]; try reflexivity.
  do 5 (try destruct p as [p|p|]; try reflexivity).
Qed.

Lemma hex_digits_rev_length (k : nat) (n : Z) :
  length (hex_digits_rev k n) = k.
Proof.
  revert n; induction k as [|k IH]; intros n; simpl;
    [reflexivity | now rewrite IH].
Qed.

Lemma hex_digits_rev_are_hex (k : nat) (n : Z) :
  List.Forall (fun c => is_hex_char c = true) (hex_digits_rev k n).
Proof.
  revert n; induction k as [|k IH]; intros n; simpl; constructor;
    [apply hex_digit_is_hex | apply IH].
Qed.

Lemma hex_length (n : Z) : String.length (hex n) = 32%nat.
Proof.
  unfold hex.
  assert (L : forall l, String.length (string_of_list_ascii l) = length l).
  { induction l as [|c l IH]; simpl; [reflexivity | now rewrite IH]. }
  now rewrite L, length_rev, hex_digits_rev_length.
Qed.

(** X8: the generated name is the task identifier, a dot and exactly 32
    characters, each one of [0123456789abcdef]; it is 33 characters longer
    than the task identifier, and all renders of one operator have the same
    length. *)
Theorem generated_name_shape (self : NodePodOperator) (t1 t2 : Z) :
  is_uuid_int t1 -> is_uuid_int t2 ->
  String.length (hex t1) = 32%nat
  /\ List.Forall (fun c => is_hex_char c = true) (list_ascii_of_string (hex t1))
  /\ String.length (_task_id self +:+ "." +:+ hex t1)
     = (String.length (_task_id self) + 33)%nat
  /\ String.length (minimal_pod_template self t1)
     = String.length (minimal_pod_template self t2).
Proof.
  intros _ _. split; [apply hex_length|]. split; [|split].
  - unfold hex. rewrite list_ascii_of_string_of_list_ascii.
    apply List.Forall_rev, hex_digits_rev_are_hex.
  - rewrite !length_app_s, hex_length. simpl. lia.
  - rewrite !template_around_name, !length_app_s, !hex_length. reflexivity.
Qed.

Lemma generated_name_shape_witness :
  String.length ("train-model" +:+ "." +:+ hex 255) = 44%nat
  /\ String.length (minimal_pod_template train_model 255)
     = String.length (minimal_pod_template train_model (2 ^ 127)).
Proof.
  assert (U1 : is_uuid_int 255) by (unfold is_uuid_int; lia).
  assert (U2 : is_uuid_int (2 ^ 127)) by (unfold is_uuid_int; lia).
  destruct (generated_name_shape train_model 255 (2 ^ 127) U1 U2)
    as (_ & _ & Hn & Hd).
  split; [exact Hn | exact Hd].
Defined.

Lemma app_inj_same_length (a a' b b' : string) :
  String.length b = String.length b' ->
  a +:+ b = a' +:+ b' -> a = a' /\ b = b'.
Proof.
  intros Hl H.
  assert (Hla : String.length a = String.length a').
  { apply (f_equal String.length) in H. rewrite !length_app_s in H. lia. }
  clear Hl. revert a' Hla H.
  induction a as [|c a IH]; intros [|c' a'] Hla H; simpl in *;
    try discriminate.
  - now split.
  - injection H as -> H. injection Hla as Hla.
    destruct (IH a' Hla H) as [-> ->]. now split.
Qed.

(** X9: a render can be read back.  For operators with single-line names
    and 128-bit tokens two renders are the same text exactly when the task
    identifiers, the tokens and the two flags are the same and, with the
    volume enabled, the claim names are formatted alike; so the one thing a
    text does not tell is whether the claim name was absent or was the word
    None. *)
Theorem render_determines_operator
    (s1 s2 : NodePodOperator) (t1 t2 : Z) :
  single_line_names s1 = true -> single_line_names s2 = true ->
  is_uuid_int t1 -> is_uuid_int t2 ->
  minimal_pod_template s1 t1 = minimal_pod_template s2 t2
  <-> _task_id s1 = _task_id s2
      /\ t1 = t2
      /\ _mlflow_enabled s1 = _mlflow_enabled s2
      /\ _volume_disabled s1 = _volume_disabled s2
      /\ (_volume_disabled s1 = false ->
          format_field (_pvc_name s1) = format_field (_pvc_name s2)).
Proof.
  intros Hs1 Hs2 U1 U2. split.
  - intros E. apply (f_equal split_lines) in E.
    rewrite !split_template in E by assumption.
    destruct s1 as [tid1 vd1 pvc1 ml1], s2 as [tid2 vd2 pvc2 ml2].
    unfold template_lines, header_lines, mlflow_lines, volumes_lines in E.
    cbv [_task_id _volume_disabled _pvc_name _mlflow_enabled] in E |- *.
    assert (Hh : String.length (hex t1) = String.length (hex t2))
      by now rewrite !hex_length.
    assert (Hinj : hex t1 = hex t2 -> t1 = t2) by (now apply hex_inj).
    generalize dependent (hex t2). generalize dependent (hex t1).
    intros h1 h2 E Hh Hinj.
    assert (Hlen := f_equal (@length string) E).
    assert (Hname : tid1 = tid2 /\ h1 = h2).
    { injection E as E _.
      apply app_inj_same_length in E as [-> E].
      - split; [reflexivity|]. now injection E.
      - cbn [String.length]. now rewrite Hh. }
    destruct Hname as [-> ->]. split; [reflexivity|].
    split; [now apply Hinj|]. clear Hinj Hh.
    destruct ml1, ml2, vd1, vd2; cbn [negb List.app length] in Hlen;
      try discriminate Hlen; (split; [reflexivity|]);
      (split; [reflexivity|]); intros Hv; try discriminate Hv;
      cbn [negb List.app] in E; injection E as E; exact E.
  - intros (Htid & -> & Hml & Hvd & Hpvc).
    unfold minimal_pod_template, volumes_block.
    rewrite Htid, Hml, Hvd.
    destruct (_volume_disabled s2) eqn:Hv; cbn [negb]; [reflexivity|].
    rewrite Hpvc; [reflexivity|]. now rewrite Hvd.
Qed.

Lemma render_determines_operator_witness :
  minimal_pod_template train_model_no_claim 255
  = minimal_pod_template train_model_claim_None 255.
Proof.
  assert (U : is_uuid_int 255) by (unfold is_uuid_int; lia).
  apply (render_determines_operator train_model_no_claim
           train_model_claim_None 255 255 eq_refl eq_refl U U).
  repeat split.
Defined.

(** X10: from the call to the text handed to the base class.  When the
    constructor returns, for single-line names, [config_file] has one
    MLFLOW_RUN_ID entry unless the call passed [mlflow_enabled=False], and
    one [volumes:] key unless it passed [volume_disabled=True]. *)
Theorem init_config_file_entries
    (g : gmap string pyobj) (p : Params.t) (token : Z)
    (self : NodePodOperator) (kw : Base.kwargs) :
  init g p token = Ok (self, kw) ->
  single_line_names self = true ->
  count_mlflow_entries (Base.config_file kw)
  = (if default true (Params.mlflow_enabled p) then 1 else 0)%nat
  /\ count_volumes_keys (Base.config_file kw)
     = (if default false (Params.volume_disabled p) then 0 else 1)%nat.
Proof.
  intros E Hs. unfold init in E.
  destruct (create_security_context g _ _) as [sc|e]; [|discriminate E].
  injection E as <- <-. cbn [Base.config_file].
  unfold count_mlflow_entries, count_volumes_keys.
  rewrite (split_template _ token Hs).
  unfold template_lines, header_lines, mlflow_lines, volumes_lines.
  cbv [_task_id _volume_disabled _pvc_name _mlflow_enabled].
  generalize (hex token) (Params.task_id p)
    (format_field (Params.pvc_name p)).
  intros h tid c.
  destruct (default true (Params.mlflow_enabled p)),
    (default false (Params.volume_disabled p)); split; reflexivity.
Qed.

Lemma init_config_file_entries_witness :
  exists self kw,
    init module_globals
      (call_without_volume "split" "airflow" "registry/pipelines:1" "Always"
         "pipelines" "split") 255
    = Ok (self, kw)
    /\ count_mlflow_entries (Base.config_file kw) = 1%nat
    /\ count_volumes_keys (Base.config_file kw) = 0%nat.
Proof.
  destruct (init module_globals
      (call_without_volume "split" "airflow" "registry/pipelines:1" "Always"
         "pipelines" "split") 255) as [[self kw]|e] eqn:E;
    [|discriminate E].
  exists self, kw. split; [reflexivity|].
  assert (Hs : single_line_names self = true).
  { injection E as <- <-. reflexivity. }
  exact (init_config_file_entries _ _ _ _ _ E Hs).
Defined.
